(** * starchart: [app/utils.ts]

    A shallow embedding of the string helpers of [app/utils.ts]: the
    redirect sanitiser [safeRedirect] and the per-user domain name helpers
    [cleanUsername], [buildUserBaseDomain], [buildDomain] and
    [getSubdomainFromFqdn]; and of the other functions of the file: the
    route data lookup [useMatchesData], the user hooks built on it, the
    filter [getChildrenValuesOfQueueName] and the message table
    [getErrorMessageFromStatusCode].  What the hooks read from the router
    and what the job resolves to are parameters of the functions.

    JavaScript strings are finite sequences of code units.  The functions
    below only ever compare code units for equality (against ['.'] and
    ['/']) and count them, so a string is modelled by the Standard
    Library's [string], one [ascii] character standing for one code unit.
    Indices and lengths are JavaScript numbers; they are modelled in [Z],
    with the clamping that [String.prototype.substring] performs written
    out. *)

From Stdlib Require Import ZArith Lia Bool List Ascii String.
Import ListNotations.

Local Open Scope string_scope.

(** ** The fragment of the JavaScript string library that the file uses *)

Module JS.

(** [s.length], as a number. *)
Definition len (s : string) : Z := Z.of_nat (String.length s).

(** Clamp an index into [0 .. s.length], as [substring] does with each
    of its arguments. *)
Definition clamp (s : string) (i : Z) : Z := Z.min (Z.max i 0) (len s).

(** [s.substring(start, end)]: both arguments are clamped, and swapped
    when the first exceeds the second. *)
Definition substring (s : string) (start finish : Z) : string :=
  let a := clamp s start in
  let b := clamp s finish in
  let from := Z.min a b in
  let to := Z.max a b in
  String.substring (Z.to_nat from) (Z.to_nat (to - from)) s.

(** [s.endsWith(t)]: the search starts at [s.length - t.length]; a
    negative start means no match. *)
Definition endsWith (s t : string) : bool :=
  let start := (len s - len t)%Z in
  if (start <? 0)%Z then false
  else String.eqb (String.substring (Z.to_nat start) (String.length t) s) t.

(** [s.startsWith(t)], searching from position 0. *)
Definition startsWith (s t : string) : bool :=
  if (len s <? len t)%Z then false
  else String.eqb (String.substring 0 (String.length t) s) t.

(** [s.replace(/c/g, by)] for a pattern that is one literal character:
    every occurrence of [c] is replaced. *)
Fixpoint replaceAllChar (c : ascii) (by_ : string) (s : string) : string :=
  match s with
  | EmptyString => EmptyString
  | String x rest =>
      if Ascii.eqb x c then by_ ++ replaceAllChar c by_ rest
      else String x (replaceAllChar c by_ rest)
  end.

(** What a template literal [`${v}`] prints for a value of type
    [string | undefined]. *)
Definition toTemplate (v : option string) : string :=
  match v with
  | Some s => s
  | None => "undefined"
  end.

(** Truthiness of a string: only the empty string is falsy. *)
Definition truthy (s : string) : bool :=
  match s with
  | EmptyString => false
  | String _ _ => true
  end.

End JS.

(** ** Values and outcomes *)

(** [process.env]: the only variable read is [ROOT_DOMAIN], which is a
    string when set and [undefined] otherwise. *)
Record ProcessEnv : Type := { ROOT_DOMAIN : option string }.

(** The one exception the domain helpers throw: [new Error(message)]. *)
Variant Exn : Type := Error (message : string).

(** Outcome of a call that may throw. *)
Variant Outcome (A : Type) : Type :=
  | Return (value : A)
  | Throw (e : Exn).
Arguments Return {A} value.
Arguments Throw {A} e.

(** A [File] entry of a form; it is an object, hence truthy and not of
    type ['string']. *)
Record File : Type := { fileName : string }.

(** The argument [to] of [safeRedirect]:
    [FormDataEntryValue | string | null | undefined]. *)
Variant RedirectTarget : Type :=
  | TString (s : string)
  | TFile (f : File)
  | TNull
  | TUndefined.

(** ** The functions of [app/utils.ts] *)

Definition DEFAULT_REDIRECT : string := "/".

(** [!to]: [null], [undefined] and the empty string are falsy; a [File]
    is an object and so truthy. *)
Definition falsy (to : RedirectTarget) : bool :=
  match to with
  | TString s => negb (JS.truthy s)
  | TFile _ => false
  | TNull => true
  | TUndefined => true
  end.

(** [typeof to !== 'string'] *)
Definition typeofNotString (to : RedirectTarget) : bool :=
  match to with
  | TString _ => false
  | TFile _ => true
  | TNull => true
  | TUndefined => true
  end.

(** [safeRedirect(to, defaultRedirect = DEFAULT_REDIRECT)]; an omitted
    (or [undefined]) second argument is [None]. *)
Definition safeRedirect (to : RedirectTarget) (defaultRedirect : option string)
  : string :=
  let defaultRedirect :=
    match defaultRedirect with
    | Some d => d
    | None => DEFAULT_REDIRECT
    end in
  if falsy to || typeofNotString to then defaultRedirect
  else
    match to with
    | TString s =>
        if negb (JS.startsWith s "/") || JS.startsWith s "//"
        then defaultRedirect
        else s
    | _ => defaultRedirect (* not reached: [to] is a string here *)
    end.

(** [username.replace(/\./g, '')] *)
Definition cleanUsername (username : string) : string :=
  JS.replaceAllChar "." "" username.

(** [`${cleanUsername(username)}.${process.env.ROOT_DOMAIN}`] *)
Definition buildUserBaseDomain (env : ProcessEnv) (username : string) : string :=
  cleanUsername username ++ "." ++ JS.toTemplate (ROOT_DOMAIN env).

(** [buildDomain(username, name?)]; an omitted name is [None]. *)
Definition buildDomain (env : ProcessEnv) (username : string)
  (name : option string) : string :=
  match name with
  | Some n =>
      if JS.truthy n then n ++ "." ++ buildUserBaseDomain env username
      else buildUserBaseDomain env username
  | None => buildUserBaseDomain env username
  end.

Definition notSubdomainMessage : string :=
  "fqdn is not a subdomain of user's base domain".

(** [getSubdomainFromFqdn(username, fqdn)] *)
Definition getSubdomainFromFqdn (env : ProcessEnv) (username fqdn : string)
  : Outcome string :=
  let baseDomain := buildUserBaseDomain env username in
  if negb (JS.endsWith fqdn ("." ++ baseDomain)) then
    Throw (Error notSubdomainMessage)
  else
    let subdomain :=
      JS.substring fqdn 0 (JS.len fqdn - (JS.len baseDomain + 1)) in
    Return subdomain.

(** The calls a client can make to the domain helpers, with the outcome
    of each.  Only [getSubdomainFromFqdn] contains a [throw]; the other
    three run to their [return].  This type is used to state, in one
    sentence, which calls can fail. *)
Variant DomainCall : Type :=
  | CallCleanUsername (username : string)
  | CallBuildUserBaseDomain (username : string)
  | CallBuildDomain (username : string) (name : option string)
  | CallGetSubdomainFromFqdn (username fqdn : string).

Definition runDomainCall (env : ProcessEnv) (c : DomainCall) : Outcome string :=
  match c with
  | CallCleanUsername u => Return (cleanUsername u)
  | CallBuildUserBaseDomain u => Return (buildUserBaseDomain env u)
  | CallBuildDomain u n => Return (buildDomain env u n)
  | CallGetSubdomainFromFqdn u fqdn => getSubdomainFromFqdn env u fqdn
  end.

(** ** Vocabulary of the statements *)

(** [s] ends with [t]: some string followed by [t] is [s]. *)
Definition EndsWith (s t : string) : Prop := exists p, s = p ++ t.

(** [s] starts with [t]. *)
Definition StartsWith (s t : string) : Prop := exists r, s = t ++ r.

(** A path on the same origin: it starts with one slash, not with two. *)
Definition SameOriginPath (s : string) : Prop :=
  s <> "" /\ StartsWith s "/" /\ ~ StartsWith s "//".

(** The value of the second parameter of [safeRedirect] once its default
    is applied. *)
Definition fallbackOf (d : option string) : string :=
  match d with
  | Some x => x
  | None => DEFAULT_REDIRECT
  end.

(** Number of occurrences of the character [c] in [s]. *)
Fixpoint countChar (c : ascii) (s : string) : nat :=
  match s with
  | EmptyString => 0
  | String x rest => (if Ascii.eqb x c then 1 else 0) + countChar c rest
  end.

(** The environment of the documented examples. *)
Definition starchartEnv : ProcessEnv := {| ROOT_DOMAIN := Some "starchart.com" |}.

(** An environment in which [ROOT_DOMAIN] is not set. *)
Definition unsetEnv : ProcessEnv := {| ROOT_DOMAIN := None |}.

(** ** Loader data, route matches and job results *)

(** A JavaScript number, as far as the file looks at one: an integer, NaN,
    or any other number (a non-integer or an infinity), which is truthy
    and strictly equal to no integer literal. *)
Variant Num : Type :=
  | NInt (z : Z)
  | NNaN
  | NOther.

(** The values found in loader data: JSON values and [undefined]. *)
#[warnings="-register-all"]
Inductive Value : Type :=
  | VUndefined
  | VNull
  | VBool (b : bool)
  | VNumber (n : Num)
  | VString (s : string)
  | VArray (items : list Value)
  | VObject (fields : list (string * Value)).

(** A plain object used as a record or as a map: its own properties, each
    key once, read and written by key. *)
Module JSObject.

Definition t (V : Type) : Type := list (string * V).

(** [o[k]], [None] standing for [undefined] on a missing key. *)
Fixpoint get {V : Type} (o : t V) (k : string) : option V :=
  match o with
  | [] => None
  | (k', v) :: rest => if String.eqb k' k then Some v else get rest k
  end.

(** [{ ...o, [k]: v }]: the property is overwritten in place when [o] has
    it, and added after the others when it has not. *)
Fixpoint set {V : Type} (o : t V) (k : string) (v : V) : t V :=
  match o with
  | [] => [(k, v)]
  | (k', v') :: rest =>
      if String.eqb k' k then (k', v) :: rest else (k', v') :: set rest k v
  end.

(** [Object.keys(o)] *)
Definition keys {V : Type} (o : t V) : list string := List.map fst o.

End JSObject.

(** [s.includes(t)]: [t] occurs in [s] at some position. *)
Fixpoint includes (s t : string) : bool :=
  JS.startsWith s t
  || match s with
     | EmptyString => false
     | String _ rest => includes rest t
     end.

(** Truthiness of a value. *)
Definition truthyValue (v : Value) : bool :=
  match v with
  | VUndefined => false
  | VNull => false
  | VBool b => b
  | VNumber (NInt z) => negb (z =? 0)%Z
  | VNumber NNaN => false
  | VNumber NOther => true
  | VString s => JS.truthy s
  | VArray _ => true
  | VObject _ => true
  end.

(** [typeof v] *)
Definition typeofValue (v : Value) : string :=
  match v with
  | VUndefined => "undefined"
  | VNull => "object"
  | VBool _ => "boolean"
  | VNumber _ => "number"
  | VString _ => "string"
  | VArray _ => "object"
  | VObject _ => "object"
  end.

(** [o.k] for a record [o]: [undefined] when the key is missing. *)
Definition prop (o : JSObject.t Value) (k : string) : Value :=
  match JSObject.get o k with
  | Some v => v
  | None => VUndefined
  end.

(** [v.k] for a value that is an object or an array.  No array of loader
    data has one of the properties read below, and the file reads a
    property of no other kind of value. *)
Definition member (v : Value) (k : string) : Value :=
  match v with
  | VObject fields => prop fields k
  | _ => VUndefined
  end.

(** One element of [useMatches()]: the fields the file reads. *)
Record RouteMatch : Type := {
  id : string;
  data : option (JSObject.t Value)
}.

(** [useMatchesData(id)]; the result of [useMatches()] is the parameter
    [matchingRoutes], and [useMemo] only caches the search. *)
Definition useMatchesData (matchingRoutes : list RouteMatch) (id_ : string)
  : option (JSObject.t Value) :=
  let route := List.find (fun route => String.eqb (id route) id_) matchingRoutes in
  match route with
  | Some r => data r
  | None => None
  end.

(** [isUser(user)]: [&&] evaluates its right operand only when the left
    one is truthy. *)
Definition isUser (user : Value) : bool :=
  if truthyValue user then
    if String.eqb (typeofValue user) "object" then
      String.eqb (typeofValue (member user "email")) "string"
    else false
  else false.

(** [useOptionalUser()]; [None] is [undefined].  The data of a route is
    an object when present, so [!data] holds only for [undefined]. *)
Definition useOptionalUser (matchingRoutes : list RouteMatch) : option Value :=
  let data := useMatchesData matchingRoutes "root" in
  match data with
  | None => None
  | Some d =>
      if negb (isUser (prop d "user")) then None
      else Some (prop d "user")
  end.

(** [useOptionalEffectiveUser()] *)
Definition useOptionalEffectiveUser (matchingRoutes : list RouteMatch)
  : option Value :=
  let data := useMatchesData matchingRoutes "root" in
  match data with
  | None => None
  | Some d =>
      if negb (isUser (prop d "effectiveUser")) then None
      else Some (prop d "effectiveUser")
  end.

Definition noUserMessage : string :=
  "No user found in root loader, but user is required by useUser. If user is optional, try useOptionalUser instead.".

Definition noEffectiveUserMessage : string :=
  "No effective user found in root loader, but user is required by useEffectiveUser. If user is optional, try useOptionalUser instead.".

(** [!maybeUser] for a value of type [User | undefined]. *)
Definition absent (maybeUser : option Value) : bool :=
  match maybeUser with
  | None => true
  | Some u => negb (truthyValue u)
  end.

(** [useUser()] *)
Definition useUser (matchingRoutes : list RouteMatch) : Outcome Value :=
  let maybeUser := useOptionalUser matchingRoutes in
  match maybeUser with
  | Some u =>
      if absent maybeUser then Throw (Error noUserMessage) else Return u
  | None => Throw (Error noUserMessage)
  end.

(** [useEffectiveUser()] *)
Definition useEffectiveUser (matchingRoutes : list RouteMatch) : Outcome Value :=
  let maybeEffectiveUser := useOptionalEffectiveUser matchingRoutes in
  match maybeEffectiveUser with
  | Some u =>
      if absent maybeEffectiveUser then Throw (Error noEffectiveUserMessage)
      else Return u
  | None => Throw (Error noEffectiveUserMessage)
  end.

(** [getChildrenValuesOfQueueName({ queueName, job })], given the object
    that [await job.getChildrenValues()] resolves to.  Every key comes
    from [Object.keys(childrenValues)], so the read [childrenValues[jobKey]]
    finds a value; the other branch is not reached. *)
Definition getChildrenValuesOfQueueName {CT : Type} (queueName : string)
  (childrenValues : JSObject.t CT) : JSObject.t CT :=
  List.fold_left
    (fun acc jobKey =>
       match JSObject.get childrenValues jobKey with
       | Some v => JSObject.set acc jobKey v
       | None => acc
       end)
    (List.filter (fun jobKey => includes jobKey queueName)
       (JSObject.keys childrenValues))
    [].

(** [statusCode === k] for an integer literal [k]. *)
Definition isCode (statusCode : Num) (k : Z) : bool :=
  match statusCode with
  | NInt z => (z =? k)%Z
  | NNaN => false
  | NOther => false
  end.

Definition genericErrorMessage : string := "An error has occurred.".

(** [getErrorMessageFromStatusCode(statusCode)]: the [switch] compares
    with [===], case by case. *)
Definition getErrorMessageFromStatusCode (statusCode : Num) : string :=
  if isCode statusCode 400 then
    "Bad Request: The server cannot process the request because it is malformed or invalid."
  else if isCode statusCode 401 then
    "Unauthorized: The request requires authentication, and the user is not authenticated."
  else if isCode statusCode 403 then
    "Forbidden: The server understands the request but refuses to authorize it."
  else if isCode statusCode 404 then
    "Not Found: The server cannot find the requested resource."
  else if isCode statusCode 500 then
    "Internal Server Error: The server encountered an unexpected condition that prevented it from fulfilling the request."
  else if isCode statusCode 502 then
    "Bad Gateway: The server received an invalid response from the upstream server."
  else if isCode statusCode 503 then
    "Service Unavailable: The server is currently unable to handle the request due to a temporary overload or maintenance."
  else genericErrorMessage.

(** The status codes that have a message of their own. *)
Definition knownStatusCodes : list Z := [400; 401; 403; 404; 500; 502; 503]%Z.

(** A number that is one of these codes. *)
Definition Known (statusCode : Num) : Prop :=
  exists z, statusCode = NInt z /\ In z knownStatusCodes.

(** [s] contains [t]: [t] sits between some two strings in [s]. *)
Definition Includes (s t : string) : Prop := exists p r, s = p ++ t ++ r.

(** A value that passes for a user: an object whose [email] is a string. *)
Definition UserLike (v : Value) : Prop :=
  exists fields e, v = VObject fields /\ JSObject.get fields "email" = Some (VString e).

(** ** Facts about strings *)

Section StringFacts.

Implicit Types s t p r : string.

Lemma length_app s t :
  String.length (s ++ t) = String.length s + String.length t.
Proof. induction s as [|c s IH]; simpl; [reflexivity | now rewrite IH]. Qed.

Lemma app_empty_r s : s ++ "" = s.
Proof. induction s as [|c s IH]; simpl; [reflexivity | now rewrite IH]. Qed.

Lemma app_assoc s t r : (s ++ t) ++ r = s ++ (t ++ r).
Proof. induction s as [|c s IH]; simpl; [reflexivity | now rewrite IH]. Qed.

Lemma substring_zero_length n s : String.substring n 0 s = "".
Proof.
  revert s; induction n as [|n IH]; intros [|c s]; simpl; auto.
Qed.

Lemma substring_whole s : String.substring 0 (String.length s) s = s.
Proof. induction s as [|c s IH]; simpl; [reflexivity | now rewrite IH]. Qed.

(** The first [length p] characters of [p ++ t] are [p]. *)
Lemma substring_app_left p t :
  String.substring 0 (String.length p) (p ++ t) = p.
Proof.
  induction p as [|c p IH]; simpl.
  - apply substring_zero_length.
  - now rewrite IH.
Qed.

(** Skipping [p] in [p ++ t] leaves [t]. *)
Lemma substring_app_right p t :
  String.substring (String.length p) (String.length t) (p ++ t) = t.
Proof.
  induction p as [|c p IH]; simpl.
  - apply substring_whole.
  - exact IH.
Qed.

(** A string is its first [n] characters followed by the others. *)
Lemma substring_split n s :
  n <= String.length s ->
  String.substring 0 n s ++ String.substring n (String.length s - n) s = s.
Proof.
  revert s; induction n as [|n IH]; intros s Hn.
  - rewrite substring_zero_length, Nat.sub_0_r. simpl. apply substring_whole.
  - destruct s as [|c s]; simpl in *; [lia|].
    rewrite IH by lia. reflexivity.
Qed.

Lemma len_nonneg s : (0 <= JS.len s)%Z.
Proof. unfold JS.len; lia. Qed.

Lemma len_app s t : JS.len (s ++ t) = (JS.len s + JS.len t)%Z.
Proof. unfold JS.len. rewrite length_app. lia. Qed.

(** With both bounds in range, [substring(0, k)] is the first [k]
    characters. *)
Lemma js_substring_prefix s k :
  (0 <= k <= JS.len s)%Z ->
  JS.substring s 0 k = String.substring 0 (Z.to_nat k) s.
Proof.
  intros Hk. unfold JS.substring, JS.clamp.
  pose proof (len_nonneg s).
  replace (Z.min (Z.max 0 0) (JS.len s)) with 0%Z by lia.
  replace (Z.min (Z.max k 0) (JS.len s)) with k by lia.
  replace (Z.min 0 k) with 0%Z by lia.
  replace (Z.max 0 k - 0)%Z with k by lia.
  reflexivity.
Qed.

(** [endsWith] decides [EndsWith]. *)
Lemma endsWith_true s t : JS.endsWith s t = true <-> EndsWith s t.
Proof.
  unfold JS.endsWith, EndsWith, JS.len. split.
  - destruct (Z.ltb_spec (Z.of_nat (String.length s) - Z.of_nat (String.length t)) 0)
      as [Hlt|Hge]; [discriminate|].
    intros Heq. apply String.eqb_eq in Heq.
    exists (String.substring 0 (String.length s - String.length t) s).
    replace (Z.to_nat (Z.of_nat (String.length s) - Z.of_nat (String.length t)))
      with (String.length s - String.length t) in Heq by lia.
    replace (String.length t)
      with (String.length s - (String.length s - String.length t)) in Heq at 2
      by lia.
    rewrite <- Heq at 2. symmetry. apply substring_split. lia.
  - intros [p ->]. rewrite length_app.
    destruct (Z.ltb_spec
                (Z.of_nat (String.length p + String.length t)
                 - Z.of_nat (String.length t)) 0) as [Hlt|Hge]; [lia|].
    replace (Z.to_nat (Z.of_nat (String.length p + String.length t)
                       - Z.of_nat (String.length t)))
      with (String.length p) by lia.
    rewrite substring_app_right. apply String.eqb_refl.
Qed.

Lemma endsWith_false s t : JS.endsWith s t = false <-> ~ EndsWith s t.
Proof.
  rewrite <- endsWith_true. symmetry. apply Bool.not_true_iff_false.
Qed.

(** [startsWith] decides [StartsWith]. *)
Lemma startsWith_true s t : JS.startsWith s t = true <-> StartsWith s t.
Proof.
  unfold JS.startsWith, StartsWith, JS.len. split.
  - destruct (Z.ltb_spec (Z.of_nat (String.length s)) (Z.of_nat (String.length t)))
      as [Hlt|Hge]; [discriminate|].
    intros Heq. apply String.eqb_eq in Heq.
    exists (String.substring (String.length t) (String.length s - String.length t) s).
    transitivity (String.substring 0 (String.length t) s
                  ++ String.substring (String.length t)
                       (String.length s - String.length t) s).
    + symmetry. apply substring_split. lia.
    + now rewrite Heq.
  - intros [r ->]. rewrite length_app.
    destruct (Z.ltb_spec (Z.of_nat (String.length t + String.length r))
                (Z.of_nat (String.length t))) as [Hlt|Hge]; [lia|].
    rewrite substring_app_left. apply String.eqb_refl.
Qed.

Lemma startsWith_false s t : JS.startsWith s t = false <-> ~ StartsWith s t.
Proof.
  rewrite <- startsWith_true. symmetry. apply Bool.not_true_iff_false.
Qed.

(** Cutting the suffix [t] off [p ++ t] with [substring] gives [p]. *)
Lemma js_substring_cut p t :
  JS.substring (p ++ t) 0 (JS.len (p ++ t) - JS.len t) = p.
Proof.
  rewrite js_substring_prefix.
  - rewrite len_app.
    replace (Z.to_nat (JS.len p + JS.len t - JS.len t)) with (String.length p)
      by (unfold JS.len; lia).
    apply substring_app_left.
  - rewrite len_app. pose proof (len_nonneg p). pose proof (len_nonneg t). lia.
Qed.

End StringFacts.

(** ** [cleanUsername] *)

Section CleanUsername.

Lemma cleanUsername_cons c u :
  cleanUsername (String c u) =
  if Ascii.eqb c "." then cleanUsername u else String c (cleanUsername u).
Proof. unfold cleanUsername; simpl. now destruct (Ascii.eqb c "."). Qed.

Lemma countChar_le_length c u : countChar c u <= String.length u.
Proof.
  induction u as [|x u IH]; simpl; [lia|].
  destruct (Ascii.eqb x c); lia.
Qed.

(** Removed dots and kept characters add up to the input. *)
Lemma cleanUsername_length_plus u :
  String.length (cleanUsername u) + countChar "." u = String.length u.
Proof.
  induction u as [|x u IH]; [reflexivity|].
  rewrite cleanUsername_cons. simpl countChar. simpl String.length.
  destruct (Ascii.eqb x "."); simpl; lia.
Qed.

Lemma cleanUsername_countChar u : countChar "." (cleanUsername u) = 0.
Proof.
  induction u as [|x u IH]; [reflexivity|].
  rewrite cleanUsername_cons.
  destruct (Ascii.eqb x ".") eqn:E; [exact IH|].
  simpl. rewrite E. exact IH.
Qed.

(** A string in which [c] occurs zero times has [c] at no index. *)
Lemma countChar_zero_get c s :
  countChar c s = 0 -> forall i, String.get i s <> Some c.
Proof.
  induction s as [|x s IH]; intros Hc i; simpl in *.
  - destruct i; discriminate.
  - destruct (Ascii.eqb x c) eqn:E; [discriminate|].
    destruct i as [|i].
    + intros [= ->]. rewrite Ascii.eqb_refl in E. discriminate.
    + apply IH. exact Hc.
Qed.

End CleanUsername.

(** C5. [cleanUsername] is defined on every string; its result has no
    ['.'] at any index (equivalently, ['.'] occurs zero times in it), and
    its length is the length of the username minus the number of ['.']
    characters of the username. *)
Theorem cleanUsername_strips_every_dot (u : string) :
  (exists r, cleanUsername u = r
             /\ (forall i, String.get i r <> Some "."%char)
             /\ countChar "." r = 0)
  /\ JS.len (cleanUsername u) = (JS.len u - Z.of_nat (countChar "." u))%Z
  /\ String.length (cleanUsername u) = String.length u - countChar "." u.
Proof.
  split; [|split].
  - exists (cleanUsername u). split; [reflexivity|]. split.
    + apply countChar_zero_get, cleanUsername_countChar.
    + apply cleanUsername_countChar.
  - unfold JS.len. pose proof (cleanUsername_length_plus u). lia.
  - pose proof (cleanUsername_length_plus u). lia.
Qed.

(** ** [buildUserBaseDomain] and [buildDomain] *)

(** C4. With a non-empty name, [buildDomain] is the name, a dot and the
    user's base domain; with no name or the empty name it is the base
    domain; and the base domain is the cleaned username, a dot and the
    configured root domain. *)
Theorem buildDomain_cases (env : ProcessEnv) (u : string) :
  (forall n, n <> "" ->
     buildDomain env u (Some n) = n ++ "." ++ buildUserBaseDomain env u)
  /\ buildDomain env u None = buildUserBaseDomain env u
  /\ buildDomain env u (Some "") = buildUserBaseDomain env u
  /\ (forall root, ROOT_DOMAIN env = Some root ->
        buildUserBaseDomain env u = cleanUsername u ++ "." ++ root).
Proof.
  repeat split.
  - intros [|c n] Hn; [contradiction|reflexivity].
  - intros root Hroot. unfold buildUserBaseDomain. now rewrite Hroot.
Qed.

Lemma buildDomain_cases_witness :
  buildDomain starchartEnv "john.smith" (Some "www")
  = "www" ++ "." ++ buildUserBaseDomain starchartEnv "john.smith"
  /\ buildUserBaseDomain starchartEnv "john.smith"
     = cleanUsername "john.smith" ++ "." ++ "starchart.com".
Proof.
  destruct (buildDomain_cases starchartEnv "john.smith") as (Hname & _ & _ & Hroot).
  split.
  - apply Hname. discriminate.
  - apply Hroot. reflexivity.
Defined.

(** C6. Every domain that [buildDomain] produces is the user's base
    domain (when no name or an empty name is given) or a non-empty record
    name, a dot and the user's base domain. *)
Theorem buildDomain_shape (env : ProcessEnv) (u : string) (n : option string) :
  (buildDomain env u n = buildUserBaseDomain env u
   /\ (n = None \/ n = Some ""))
  \/ (exists record, n = Some record /\ record <> ""
      /\ buildDomain env u n = record ++ "." ++ buildUserBaseDomain env u).
Proof.
  destruct n as [[|c n]|].
  - left. split; [reflexivity | now right].
  - right. exists (String c n). repeat split. discriminate.
  - left. split; [reflexivity | now left].
Qed.

(** C7. When [ROOT_DOMAIN] is not set, [buildUserBaseDomain] still returns
    a string: the cleaned username followed by [".undefined"]. *)
Theorem buildUserBaseDomain_unset_root (env : ProcessEnv) (u : string) :
  ROOT_DOMAIN env = None ->
  buildUserBaseDomain env u = cleanUsername u ++ "." ++ "undefined"
  /\ EndsWith (buildUserBaseDomain env u) "undefined".
Proof.
  intros Hroot. unfold buildUserBaseDomain. rewrite Hroot. simpl JS.toTemplate.
  split; [reflexivity|].
  exists (cleanUsername u ++ "."). now rewrite app_assoc.
Qed.

Lemma buildUserBaseDomain_unset_root_witness :
  buildUserBaseDomain unsetEnv "john.smith" = "johnsmith.undefined".
Proof.
  exact (proj1 (buildUserBaseDomain_unset_root unsetEnv "john.smith" eq_refl)).
Defined.

(** C8. The documented example, with root domain ["starchart.com"]. *)
Theorem john_smith_example :
  buildUserBaseDomain starchartEnv "john.smith" = "johnsmith.starchart.com"
  /\ buildDomain starchartEnv "john.smith" (Some "www")
     = "www.johnsmith.starchart.com"
  /\ getSubdomainFromFqdn starchartEnv "john.smith" "www.johnsmith.starchart.com"
     = Return "www"
  /\ getSubdomainFromFqdn starchartEnv "john.smith" "www.otheruser.starchart.com"
     = Throw (Error "fqdn is not a subdomain of user's base domain").
Proof. repeat split; vm_compute; reflexivity. Qed.

(** ** [getSubdomainFromFqdn] *)

Section Subdomain.

Variable env : ProcessEnv.
Variable u : string.

Let base := buildUserBaseDomain env u.

Lemma len_dot_base : JS.len ("." ++ base) = (JS.len base + 1)%Z.
Proof.
  change ("." ++ base) with (String "." base).
  unfold JS.len. cbn [String.length]. lia.
Qed.

(** On a name in the user's domain the call returns the part before the
    dot. *)
Lemma getSubdomainFromFqdn_app p :
  getSubdomainFromFqdn env u (p ++ "." ++ base) = Return p.
Proof.
  unfold getSubdomainFromFqdn. fold base.
  assert (He : JS.endsWith (p ++ "." ++ base) ("." ++ base) = true)
    by (apply endsWith_true; now exists p).
  rewrite He. simpl negb. cbv iota.
  rewrite <- len_dot_base. now rewrite js_substring_cut.
Qed.

(** On any other name it throws. *)
Lemma getSubdomainFromFqdn_other fqdn :
  ~ EndsWith fqdn ("." ++ base) ->
  getSubdomainFromFqdn env u fqdn = Throw (Error notSubdomainMessage).
Proof.
  intros H. apply endsWith_false in H.
  unfold getSubdomainFromFqdn. fold base. now rewrite H.
Qed.

(** The base domain itself is no subdomain of the base domain. *)
Lemma base_not_own_subdomain : ~ EndsWith base ("." ++ base).
Proof.
  intros [p Hp]. apply (f_equal String.length) in Hp.
  rewrite length_app in Hp. simpl in Hp. lia.
Qed.

End Subdomain.

(** C1, as written, at the empty label: [buildDomain] gives the base
    domain, and [getSubdomainFromFqdn] throws on it instead of returning
    the empty label. *)
Lemma roundtrip_empty_label_throws :
  getSubdomainFromFqdn starchartEnv "john.smith"
    (buildDomain starchartEnv "john.smith" (Some ""))
  = Throw (Error notSubdomainMessage)
  /\ getSubdomainFromFqdn starchartEnv "john.smith"
       (buildDomain starchartEnv "john.smith" (Some ""))
     <> Return "".
Proof. split; [vm_compute; reflexivity | vm_compute; discriminate]. Qed.

(** C1, amended. For every username and every non-empty label [n],
    [getSubdomainFromFqdn] applied to [buildDomain u n] returns [n]. *)
Theorem roundtrip_nonempty_label (env : ProcessEnv) (u n : string) :
  n <> "" ->
  getSubdomainFromFqdn env u (buildDomain env u (Some n)) = Return n.
Proof.
  intros Hn. destruct n as [|c n]; [contradiction|].
  change (buildDomain env u (Some (String c n)))
    with (String c n ++ "." ++ buildUserBaseDomain env u).
  apply getSubdomainFromFqdn_app.
Qed.

Lemma roundtrip_nonempty_label_witness :
  getSubdomainFromFqdn starchartEnv "john.smith"
    (buildDomain starchartEnv "john.smith" (Some "www")) = Return "www".
Proof.
  apply (roundtrip_nonempty_label starchartEnv "john.smith" "www").
  discriminate.
Defined.

(** With the empty label, or none, the composition throws for every user:
    this is the part of the round trip that C1 claims and the code does
    not have. *)
Lemma roundtrip_without_label_throws (env : ProcessEnv) (u : string) (n : option string) :
  n = None \/ n = Some "" ->
  getSubdomainFromFqdn env u (buildDomain env u n) = Throw (Error notSubdomainMessage).
Proof.
  intros [-> | ->]; simpl buildDomain;
    apply getSubdomainFromFqdn_other, base_not_own_subdomain.
Qed.

(** C2. [getSubdomainFromFqdn] throws if and only if the name does not end
    with a dot followed by the user's base domain; what it throws is the
    one [Error] of the file; and a call to any of the domain helpers that
    throws is a call to [getSubdomainFromFqdn]. *)
Theorem getSubdomainFromFqdn_throws_iff (env : ProcessEnv) (u fqdn : string) :
  ((exists e, getSubdomainFromFqdn env u fqdn = Throw e)
   <-> ~ EndsWith fqdn ("." ++ buildUserBaseDomain env u))
  /\ (forall e, getSubdomainFromFqdn env u fqdn = Throw e ->
        e = Error notSubdomainMessage)
  /\ (forall c e, runDomainCall env c = Throw e ->
        exists u' fqdn', c = CallGetSubdomainFromFqdn u' fqdn').
Proof.
  split; [|split].
  - split.
    + intros [e He] [p Hp]. subst fqdn.
      rewrite getSubdomainFromFqdn_app in He. discriminate.
    + intros H. eexists. now apply getSubdomainFromFqdn_other.
  - intros e. unfold getSubdomainFromFqdn.
    destruct (negb _); [now intros [= <-] | discriminate].
  - intros [u'|u'|u' n|u' fqdn'] e; simpl; try discriminate.
    intros _. now exists u', fqdn'.
Qed.

Lemma getSubdomainFromFqdn_throws_iff_witness :
  ~ EndsWith "www.otheruser.starchart.com"
      ("." ++ buildUserBaseDomain starchartEnv "john.smith")
  /\ Error notSubdomainMessage = Error notSubdomainMessage
  /\ exists u' fqdn',
       CallGetSubdomainFromFqdn "john.smith" "www.otheruser.starchart.com"
       = CallGetSubdomainFromFqdn u' fqdn'.
Proof.
  destruct (getSubdomainFromFqdn_throws_iff starchartEnv "john.smith"
              "www.otheruser.starchart.com") as (Hiff & Hkind & Honly).
  split; [|split].
  - apply Hiff. exists (Error notSubdomainMessage). vm_compute. reflexivity.
  - apply Hkind. vm_compute. reflexivity.
  - apply (Honly _ (Error notSubdomainMessage)). vm_compute. reflexivity.
Defined.

(** C3. When the name ends with a dot followed by the user's base domain,
    [getSubdomainFromFqdn] returns the string [p] such that the name is
    [p], the dot and the base domain: the characters of the name before
    that suffix, unchanged. *)
Theorem getSubdomainFromFqdn_returns_prefix (env : ProcessEnv) (u fqdn : string) :
  EndsWith fqdn ("." ++ buildUserBaseDomain env u) ->
  exists p,
    fqdn = p ++ "." ++ buildUserBaseDomain env u
    /\ getSubdomainFromFqdn env u fqdn = Return p
    /\ p = String.substring 0
             (String.length fqdn - String.length ("." ++ buildUserBaseDomain env u))
             fqdn.
Proof.
  intros [p Hp]. exists p. split; [exact Hp|]. split.
  - rewrite Hp. apply getSubdomainFromFqdn_app.
  - rewrite Hp at 2. rewrite Hp at 1. rewrite length_app.
    replace (String.length p + String.length ("." ++ buildUserBaseDomain env u)
             - String.length ("." ++ buildUserBaseDomain env u))
      with (String.length p) by lia.
    symmetry. apply substring_app_left.
Qed.

Lemma getSubdomainFromFqdn_returns_prefix_witness :
  exists p,
    "WWW.johnsmith.starchart.com" = p ++ "." ++ "johnsmith.starchart.com"
    /\ getSubdomainFromFqdn starchartEnv "john.smith" "WWW.johnsmith.starchart.com"
       = Return p
    /\ p = "WWW".
Proof.
  apply (getSubdomainFromFqdn_returns_prefix starchartEnv "john.smith"
           "WWW.johnsmith.starchart.com").
  exists "WWW". reflexivity.
Defined.

(** C9. A returned subdomain, followed by a dot and the user's base
    domain, is the name that was given. *)
Theorem getSubdomainFromFqdn_rejoin (env : ProcessEnv) (u fqdn s : string) :
  getSubdomainFromFqdn env u fqdn = Return s ->
  s ++ "." ++ buildUserBaseDomain env u = fqdn.
Proof.
  intros Hs.
  destruct (JS.endsWith fqdn ("." ++ buildUserBaseDomain env u)) eqn:E.
  - apply endsWith_true in E. destruct E as [p ->].
    rewrite getSubdomainFromFqdn_app in Hs. now injection Hs as ->.
  - unfold getSubdomainFromFqdn in Hs. rewrite E in Hs. discriminate.
Qed.

Lemma getSubdomainFromFqdn_rejoin_witness :
  "www" ++ "." ++ buildUserBaseDomain starchartEnv "john.smith"
  = "www.johnsmith.starchart.com".
Proof.
  apply (getSubdomainFromFqdn_rejoin starchartEnv "john.smith"
           "www.johnsmith.starchart.com" "www").
  vm_compute. reflexivity.
Defined.

(** ** [safeRedirect] *)

Section SafeRedirect.

Lemma truthy_true s : JS.truthy s = true <-> s <> "".
Proof. destruct s; simpl; split; intros H; congruence. Qed.

(** The two tests of [safeRedirect] on a string, as one condition. *)
Lemma sameOriginPath_tests s :
  SameOriginPath s <->
  JS.truthy s = true /\ JS.startsWith s "/" = true /\ JS.startsWith s "//" = false.
Proof.
  unfold SameOriginPath.
  now rewrite truthy_true, startsWith_true, startsWith_false.
Qed.

Lemma safeRedirect_same_origin s d :
  SameOriginPath s -> safeRedirect (TString s) d = s.
Proof.
  intros H. apply sameOriginPath_tests in H. destruct H as (Ht & H1 & H2).
  unfold safeRedirect, falsy, typeofNotString. now rewrite Ht, H1, H2.
Qed.

Lemma safeRedirect_other_string s d :
  ~ SameOriginPath s -> safeRedirect (TString s) d = fallbackOf d.
Proof.
  intros H. rewrite sameOriginPath_tests in H.
  unfold safeRedirect, falsy, typeofNotString, fallbackOf.
  destruct (JS.truthy s); simpl; [|reflexivity].
  destruct (JS.startsWith s "/"); simpl; [|reflexivity].
  destruct (JS.startsWith s "//"); simpl; [reflexivity|].
  exfalso. apply H. auto.
Qed.

Lemma sameOriginPath_dec s : SameOriginPath s \/ ~ SameOriginPath s.
Proof.
  rewrite sameOriginPath_tests.
  destruct (JS.truthy s), (JS.startsWith s "/"), (JS.startsWith s "//");
    auto; right; intros (? & ? & ?); discriminate.
Qed.

End SafeRedirect.

(** C10. [safeRedirect to d] returns [to] when [to] is a non-empty string
    that starts with ["/"] and not with ["//"]; in every other case (not a
    string, empty, or any other string) it returns the default, which is
    ["/"] when none is given.  So [to] is returned only when it is such a
    path or is the default itself, and the result is a same-origin path
    whenever the default is one. *)
Theorem safeRedirect_spec (to : RedirectTarget) (d : option string) :
  (forall s, to = TString s -> SameOriginPath s -> safeRedirect to d = s)
  /\ ((forall s, to = TString s -> ~ SameOriginPath s) ->
      safeRedirect to d = fallbackOf d)
  /\ (forall s, to = TString s -> safeRedirect to d = s ->
        SameOriginPath s \/ s = fallbackOf d)
  /\ fallbackOf None = "/"
  /\ safeRedirect to None = safeRedirect to (Some "/")
  /\ (SameOriginPath (fallbackOf d) -> SameOriginPath (safeRedirect to d)).
Proof.
  split; [|split; [|split; [|split; [|split]]]].
  - intros s -> Hs. now apply safeRedirect_same_origin.
  - intros Hno. destruct to as [s| | |]; try reflexivity.
    apply safeRedirect_other_string. now apply Hno.
  - intros s -> Hret. destruct (sameOriginPath_dec s) as [Hs|Hs]; [now left|].
    right. rewrite <- Hret at 1. now apply safeRedirect_other_string.
  - reflexivity.
  - reflexivity.
  - intros Hd. destruct to as [s| | |]; try exact Hd.
    destruct (sameOriginPath_dec s) as [Hs|Hs].
    + now rewrite safeRedirect_same_origin.
    + now rewrite safeRedirect_other_string.
Qed.

Lemma safeRedirect_spec_witness :
  safeRedirect (TString "/notes") (Some "/login") = "/notes"
  /\ safeRedirect TNull (Some "/login") = "/login"
  /\ SameOriginPath (safeRedirect (TString "//evil.example") None).
Proof.
  split; [|split].
  - apply (proj1 (safeRedirect_spec (TString "/notes") (Some "/login")) "/notes").
    + reflexivity.
    + apply sameOriginPath_tests. repeat split.
  - apply (proj1 (proj2 (safeRedirect_spec TNull (Some "/login")))).
    intros s Hs. discriminate Hs.
  - apply (safeRedirect_spec (TString "//evil.example") None).
    apply sameOriginPath_tests. repeat split.
Defined.

(** ** Further properties of the domain helpers *)

Section DomainFacts.

Implicit Types s t p q r u v : string.

(** A common suffix can be cancelled. *)
Lemma app_cancel_r p q t : p ++ t = q ++ t -> p = q.
Proof.
  intros H.
  assert (Hlen : String.length p = String.length q).
  { apply (f_equal String.length) in H. rewrite !length_app in H. lia. }
  rewrite <- (substring_app_left p t), <- (substring_app_left q t).
  now rewrite H, Hlen.
Qed.

Lemma countChar_app c s t : countChar c (s ++ t) = countChar c s + countChar c t.
Proof.
  induction s as [|x s IH]; simpl; [reflexivity|]. rewrite IH. lia.
Qed.

(** Two strings split at a dot, with no dot after it, are split at the
    same place. *)
Lemma split_at_last_dot p q s t :
  countChar "." s = 0 -> countChar "." t = 0 ->
  p ++ "." ++ s = q ++ "." ++ t -> p = q /\ s = t.
Proof.
  intros Hs Ht. revert q. induction p as [|c p IH]; intros [|c' q] H.
  - simpl in H. injection H as H. now split.
  - simpl in H. injection H as Hc Hrest. subst s.
    rewrite countChar_app in Hs. simpl in Hs. lia.
  - simpl in H. injection H as Hc Hrest. subst t.
    rewrite countChar_app in Ht. simpl in Ht. lia.
  - simpl in H. injection H as Hc Hrest. subst c'.
    destruct (IH q Hrest) as [-> ->]. now split.
Qed.

Lemma cleanUsername_app u v :
  cleanUsername (u ++ v) = cleanUsername u ++ cleanUsername v.
Proof.
  induction u as [|c u IH]; [reflexivity|].
  change (String c u ++ v) with (String c (u ++ v)).
  rewrite !cleanUsername_cons, IH. now destruct (Ascii.eqb c ".").
Qed.

Lemma cleanUsername_no_dot u : countChar "." u = 0 -> cleanUsername u = u.
Proof.
  induction u as [|c u IH]; [reflexivity|].
  rewrite cleanUsername_cons. simpl.
  destruct (Ascii.eqb c "."); [discriminate|].
  intros H. now rewrite IH.
Qed.

(** The base domain depends on the username through its cleaned form. *)
Lemma buildUserBaseDomain_same_clean env u v :
  cleanUsername u = cleanUsername v ->
  buildUserBaseDomain env u = buildUserBaseDomain env v.
Proof. intros H. unfold buildUserBaseDomain. now rewrite H. Qed.

(** A returned subdomain and the name it was cut from. *)
Lemma getSubdomainFromFqdn_inv env u fqdn s :
  getSubdomainFromFqdn env u fqdn = Return s ->
  fqdn = s ++ "." ++ buildUserBaseDomain env u.
Proof.
  intros Hs.
  destruct (JS.endsWith fqdn ("." ++ buildUserBaseDomain env u)) eqn:E.
  - apply endsWith_true in E. destruct E as [p ->].
    rewrite getSubdomainFromFqdn_app in Hs. now injection Hs as ->.
  - unfold getSubdomainFromFqdn in Hs. rewrite E in Hs. discriminate.
Qed.

End DomainFacts.

(** X1. Cleaning a username twice is cleaning it once, cleaning goes
    through concatenation, and the usernames that cleaning leaves as they
    are are those without a dot. *)
Theorem cleanUsername_idempotent (u v : string) :
  cleanUsername (cleanUsername u) = cleanUsername u
  /\ cleanUsername (u ++ v) = cleanUsername u ++ cleanUsername v
  /\ (cleanUsername u = u <-> countChar "." u = 0).
Proof.
  split; [|split].
  - apply cleanUsername_no_dot, cleanUsername_countChar.
  - apply cleanUsername_app.
  - split.
    + intros H. rewrite <- H. apply cleanUsername_countChar.
    + apply cleanUsername_no_dot.
Qed.

(** X2. Two usernames with the same cleaned form own the same names: they
    have the same base domain, build the same domains, and
    [getSubdomainFromFqdn] gives the same outcome for both on every
    name. *)
Theorem same_clean_username_same_domains (env : ProcessEnv) (u v : string) :
  cleanUsername u = cleanUsername v ->
  buildUserBaseDomain env u = buildUserBaseDomain env v
  /\ (forall n, buildDomain env u n = buildDomain env v n)
  /\ (forall fqdn,
        getSubdomainFromFqdn env u fqdn = getSubdomainFromFqdn env v fqdn).
Proof.
  intros H. pose proof (buildUserBaseDomain_same_clean env u v H) as Hb.
  split; [exact Hb|]. split.
  - intros n. unfold buildDomain. now rewrite Hb.
  - intros fqdn. unfold getSubdomainFromFqdn. now rewrite Hb.
Qed.

Lemma same_clean_username_same_domains_witness :
  buildUserBaseDomain starchartEnv "john.smith"
  = buildUserBaseDomain starchartEnv "johnsmith"
  /\ (forall n, buildDomain starchartEnv "john.smith" n
                = buildDomain starchartEnv "johnsmith" n)
  /\ (forall fqdn,
        getSubdomainFromFqdn starchartEnv "john.smith" fqdn
        = getSubdomainFromFqdn starchartEnv "johnsmith" fqdn).
Proof.
  apply (same_clean_username_same_domains starchartEnv "john.smith" "johnsmith").
  reflexivity.
Defined.

(** X3. A name built for one user is accepted for another user only when
    the two usernames have the same cleaned form; the name then carried
    a non-empty record name, which is what is returned. *)
Theorem getSubdomainFromFqdn_other_user (env : ProcessEnv) (u v s : string)
  (n : option string) :
  getSubdomainFromFqdn env u (buildDomain env v n) = Return s ->
  cleanUsername u = cleanUsername v /\ n = Some s /\ s <> "".
Proof.
  intros H. apply getSubdomainFromFqdn_inv in H.
  unfold buildUserBaseDomain in H.
  assert (Hcut : forall a b,
            a ++ "." ++ JS.toTemplate (ROOT_DOMAIN env)
            = b ++ "." ++ cleanUsername u ++ "." ++ JS.toTemplate (ROOT_DOMAIN env) ->
            a = b ++ "." ++ cleanUsername u).
  { intros a b Hab.
    apply (app_cancel_r _ _ ("." ++ JS.toTemplate (ROOT_DOMAIN env))).
    rewrite Hab. now rewrite !app_assoc. }
  assert (Hbase : forall b, cleanUsername v <> b ++ "." ++ cleanUsername u).
  { intros b Hb. pose proof (cleanUsername_countChar v) as Hc.
    rewrite Hb, countChar_app in Hc. simpl in Hc. lia. }
  destruct n as [[|c n]|]; simpl buildDomain in H.
  - apply Hcut in H. now destruct (Hbase s).
  - unfold buildUserBaseDomain in H.
    assert (Hn : (String c n ++ "." ++ cleanUsername v)
                 ++ "." ++ JS.toTemplate (ROOT_DOMAIN env)
                 = s ++ "." ++ cleanUsername u ++ "." ++ JS.toTemplate (ROOT_DOMAIN env)).
    { rewrite <- H. now rewrite !app_assoc. }
    apply Hcut in Hn.
    apply split_at_last_dot in Hn; try apply cleanUsername_countChar.
    destruct Hn as [Hs Hv]. split; [now symmetry|]. split.
    + now rewrite Hs.
    + rewrite <- Hs. discriminate.
  - apply Hcut in H. now destruct (Hbase s).
Qed.

Lemma getSubdomainFromFqdn_other_user_witness :
  cleanUsername "johnsmith" = cleanUsername "john.smith"
  /\ Some "www" = Some "www" /\ "www" <> "".
Proof.
  apply (getSubdomainFromFqdn_other_user starchartEnv "johnsmith" "john.smith"
           "www" (Some "www")).
  vm_compute. reflexivity.
Defined.

(** X4. Going back: when [getSubdomainFromFqdn] returns a non-empty
    subdomain, [buildDomain] with that subdomain as record name rebuilds
    the name. *)
Theorem buildDomain_of_subdomain (env : ProcessEnv) (u fqdn s : string) :
  getSubdomainFromFqdn env u fqdn = Return s ->
  s <> "" ->
  buildDomain env u (Some s) = fqdn.
Proof.
  intros H Hs. apply getSubdomainFromFqdn_inv in H. subst fqdn.
  destruct s as [|c s]; [contradiction|reflexivity].
Qed.

Lemma buildDomain_of_subdomain_witness :
  buildDomain starchartEnv "john.smith" (Some "www") = "www.johnsmith.starchart.com".
Proof.
  apply (buildDomain_of_subdomain starchartEnv "john.smith"
           "www.johnsmith.starchart.com" "www").
  - vm_compute. reflexivity.
  - discriminate.
Defined.

(** X5. The empty subdomain: on a dot followed by the user's base domain
    [getSubdomainFromFqdn] succeeds with the empty string, and
    [buildDomain] with that result does not rebuild the name, it gives
    the base domain. *)
Theorem getSubdomainFromFqdn_leading_dot (env : ProcessEnv) (u : string) :
  getSubdomainFromFqdn env u ("." ++ buildUserBaseDomain env u) = Return ""
  /\ buildDomain env u (Some "") = buildUserBaseDomain env u
  /\ buildDomain env u (Some "") <> "." ++ buildUserBaseDomain env u.
Proof.
  split; [|split].
  - apply (getSubdomainFromFqdn_app env u "").
  - reflexivity.
  - simpl buildDomain. intros H. apply (f_equal String.length) in H.
    simpl in H. lia.
Qed.

(** X6. For one user, different non-empty record names give different
    domains. *)
Theorem buildDomain_injective (env : ProcessEnv) (u n1 n2 : string) :
  n1 <> "" -> n2 <> "" ->
  buildDomain env u (Some n1) = buildDomain env u (Some n2) ->
  n1 = n2.
Proof.
  intros H1 H2 H.
  destruct n1 as [|c1 n1]; [contradiction|].
  destruct n2 as [|c2 n2]; [contradiction|].
  apply (app_cancel_r _ _ ("." ++ buildUserBaseDomain env u)). exact H.
Qed.

Lemma buildDomain_injective_witness : "www" = "www".
Proof.
  apply (buildDomain_injective starchartEnv "john.smith" "www" "www");
    [discriminate | discriminate | reflexivity].
Defined.

(** X7. Sanitising twice is sanitising once: the result of [safeRedirect],
    given again as [to] with the same default, comes back unchanged. *)
Theorem safeRedirect_idempotent (to : RedirectTarget) (d : option string) :
  safeRedirect (TString (safeRedirect to d)) d = safeRedirect to d.
Proof.
  assert (Hfb : safeRedirect (TString (fallbackOf d)) d = fallbackOf d).
  { destruct (sameOriginPath_dec (fallbackOf d)) as [H|H].
    - now apply safeRedirect_same_origin.
    - now apply safeRedirect_other_string. }
  destruct to as [s| | |]; try exact Hfb.
  destruct (sameOriginPath_dec s) as [H|H].
  - rewrite (safeRedirect_same_origin s d H).
    now apply safeRedirect_same_origin.
  - rewrite (safeRedirect_other_string s d H). exact Hfb.
Qed.

(** ** Route data and the user hooks *)

Section UserHooks.

Implicit Types (m : list RouteMatch) (d : JSObject.t Value) (u v : Value).

(** [find] returns the first element that passes the test. *)
Lemma find_first {A : Type} (f : A -> bool) (pre post : list A) (x : A) :
  (forall y, In y pre -> f y = false) -> f x = true ->
  List.find f (pre ++ x :: post) = Some x.
Proof.
  intros Hpre Hx. induction pre as [|y pre IH]; simpl.
  - now rewrite Hx.
  - rewrite (Hpre y) by now left. apply IH. intros z Hz. apply Hpre. now right.
Qed.

(** [isUser] accepts exactly the objects with a string [email]. *)
Lemma isUser_true v : isUser v = true <-> UserLike v.
Proof.
  unfold UserLike. split.
  - unfold isUser.
    destruct (truthyValue v) eqn:Ht; [|discriminate].
    destruct (String.eqb (typeofValue v) "object") eqn:Hty; [|discriminate].
    destruct v as [| |b|n|s|items|fields]; simpl in Ht, Hty; try discriminate.
    simpl member. unfold prop.
    destruct (JSObject.get fields "email") as [[| |b|n|s|items|fs]|] eqn:E;
      simpl; try discriminate.
    intros _. now exists fields, s.
  - intros (fields & e & -> & He). unfold isUser. simpl. unfold prop.
    now rewrite He.
Qed.

(** A value that passes for a user is truthy and is not [undefined]. *)
Lemma userLike_truthy v : UserLike v -> truthyValue v = true /\ v <> VUndefined.
Proof. intros (fields & e & -> & _). split; [reflexivity | discriminate]. Qed.

(** What the two optional hooks do with the field they read. *)
Lemma optional_field (data_ : option (JSObject.t Value)) (k : string) u :
  match data_ with
  | None => None
  | Some d => if negb (isUser (prop d k)) then None else Some (prop d k)
  end = Some u
  <-> exists d, data_ = Some d /\ JSObject.get d k = Some u /\ UserLike u.
Proof.
  split.
  - destruct data_ as [d|]; [|discriminate].
    destruct (isUser (prop d k)) eqn:E; simpl; [|discriminate].
    intros [= <-]. apply isUser_true in E. exists d. split; [reflexivity|].
    split; [|exact E].
    unfold prop in *. destruct (JSObject.get d k) as [x|]; [reflexivity|].
    now destruct (userLike_truthy _ E).
  - intros (d & -> & Hget & Hu). apply isUser_true in Hu.
    unfold prop. rewrite Hget, Hu. reflexivity.
Qed.

End UserHooks.

(** X8. [useMatchesData] returns the data of the first route that has the
    given id, whatever routes follow it, and [undefined] when no route
    has that id. *)
Theorem useMatchesData_first_match (id_ : string) :
  (forall pre r post,
     (forall x, In x pre -> id x <> id_) -> id r = id_ ->
     useMatchesData (pre ++ r :: post) id_ = data r)
  /\ (forall m, (forall x, In x m -> id x <> id_) -> useMatchesData m id_ = None).
Proof.
  split.
  - intros pre r post Hpre Hr. unfold useMatchesData.
    rewrite (find_first _ pre post r); [reflexivity| |].
    + intros y Hy. apply String.eqb_neq. now apply Hpre.
    + now apply String.eqb_eq.
  - intros m Hm. unfold useMatchesData.
    destruct (List.find _ m) as [r|] eqn:E; [|reflexivity].
    apply List.find_some in E. destruct E as [Hin Hid].
    apply String.eqb_eq in Hid. now destruct (Hm r Hin).
Qed.

Lemma useMatchesData_first_match_witness :
  useMatchesData
    ([ {| id := "routes/index"; data := Some [("n", VNull)] |} ]
     ++ {| id := "root"; data := None |}
     :: [ {| id := "root"; data := Some [("user", VNull)] |} ]) "root"
  = None
  /\ useMatchesData [ {| id := "routes/index"; data := Some [] |} ] "root" = None.
Proof.
  destruct (useMatchesData_first_match "root") as [Hfirst Hnone]. split.
  - apply (Hfirst [ {| id := "routes/index"; data := Some [("n", VNull)] |} ]
             {| id := "root"; data := None |}
             [ {| id := "root"; data := Some [("user", VNull)] |} ]).
    + intros x [<- | []]. discriminate.
    + reflexivity.
  - apply Hnone. intros x [<- | []]. discriminate.
Defined.

(** X9. [isUser] holds exactly for an object that has an [email] property
    whose value is a string; [null], arrays and every other value are
    refused. *)
Theorem isUser_iff (v : Value) :
  (isUser v = true <->
   exists fields e, v = VObject fields
                    /\ JSObject.get fields "email" = Some (VString e))
  /\ isUser VNull = false
  /\ (forall items, isUser (VArray items) = false).
Proof.
  split; [apply isUser_true|]. split; reflexivity.
Qed.

(** X10. [useOptionalUser] returns a value exactly when the first route
    with id ["root"] has data whose [user] property passes [isUser]; the
    value returned is that property. *)
Theorem useOptionalUser_some_iff (m : list RouteMatch) (u : Value) :
  useOptionalUser m = Some u
  <-> exists d, useMatchesData m "root" = Some d
                /\ JSObject.get d "user" = Some u
                /\ UserLike u.
Proof. unfold useOptionalUser. apply optional_field. Qed.

(** X11. [useUser] returns exactly the value of [useOptionalUser] when
    there is one, and throws its error exactly when there is none: the
    second test of the user never fails a user that was found. *)
Theorem useUser_outcome (m : list RouteMatch) :
  (forall u, useUser m = Return u <-> useOptionalUser m = Some u)
  /\ (useUser m = Throw (Error noUserMessage) <-> useOptionalUser m = None)
  /\ (forall e, useUser m = Throw e -> e = Error noUserMessage).
Proof.
  unfold useUser.
  destruct (useOptionalUser m) as [x|] eqn:E.
  - assert (Ht : truthyValue x = true).
    { apply optional_field in E. destruct E as (d & _ & _ & Hx).
      now apply userLike_truthy. }
    unfold absent. rewrite Ht. simpl.
    split; [|split].
    + intros u. split; intros [= ->]; reflexivity.
    + split; discriminate.
    + discriminate.
  - split; [|split].
    + intros u. split; discriminate.
    + split; reflexivity.
    + now intros e [= <-].
Qed.

(** X12. [useEffectiveUser] returns [u] exactly when the first route with
    id ["root"] has data whose [effectiveUser] property is [u] and passes
    [isUser]; when it throws, it throws its own error, and
    [useOptionalEffectiveUser] had found no user. *)
Theorem useEffectiveUser_outcome (m : list RouteMatch) :
  (forall u,
     useEffectiveUser m = Return u
     <-> exists d, useMatchesData m "root" = Some d
                   /\ JSObject.get d "effectiveUser" = Some u
                   /\ UserLike u)
  /\ (forall e, useEffectiveUser m = Throw e ->
        e = Error noEffectiveUserMessage
        /\ useOptionalEffectiveUser m = None).
Proof.
  unfold useEffectiveUser.
  destruct (useOptionalEffectiveUser m) as [x|] eqn:E.
  - pose proof E as E'. unfold useOptionalEffectiveUser in E'.
    apply optional_field in E'.
    assert (Ht : truthyValue x = true).
    { destruct E' as (d & _ & _ & Hx). now apply userLike_truthy. }
    unfold absent. rewrite Ht. simpl. split.
    + intros u. split.
      * now intros [= <-].
      * intros H. unfold useOptionalEffectiveUser in E.
        apply (optional_field _ "effectiveUser") in H. congruence.
    + discriminate.
  - split.
    + intros u. split; [discriminate|].
      intros H. unfold useOptionalEffectiveUser in E.
      apply (optional_field _ "effectiveUser") in H. congruence.
    + now intros e [= <-].
Qed.

(** ** Children values of a queue *)

Section ChildrenValues.

Context {V : Type}.
Implicit Types (o acc cv : JSObject.t V) (k q : string).

Lemma get_set_same o k (v : V) : JSObject.get (JSObject.set o k v) k = Some v.
Proof.
  induction o as [|[k' v'] o IH]; simpl.
  - now rewrite String.eqb_refl.
  - destruct (String.eqb k' k) eqn:E; simpl; rewrite E; [reflexivity|exact IH].
Qed.

Lemma get_set_other o k k' (v : V) :
  k' <> k -> JSObject.get (JSObject.set o k v) k' = JSObject.get o k'.
Proof.
  intros Hk. induction o as [|[k0 v0] o IH]; simpl.
  - destruct (String.eqb_spec k k'); [congruence|reflexivity].
  - destruct (String.eqb_spec k0 k) as [->|Hne]; simpl.
    + destruct (String.eqb_spec k k'); [congruence|reflexivity].
    + now rewrite IH.
Qed.

(** A key is missing exactly when it is not among the keys. *)
Lemma get_none_keys o k : JSObject.get o k = None <-> ~ In k (JSObject.keys o).
Proof.
  induction o as [|[k' v'] o IH]; simpl.
  - split; [intros _ [] | reflexivity].
  - destruct (String.eqb_spec k' k) as [->|Hne].
    + split; [discriminate | intros H; exfalso; apply H; now left].
    + rewrite IH. split.
      * intros H [Heq|Hin]; [now apply Hne | now apply H].
      * intros H Hin. apply H. now right.
Qed.

(** With each key once, every entry is what its key reads. *)
Lemma get_in_nodup o k (v : V) :
  NoDup (JSObject.keys o) -> In (k, v) o -> JSObject.get o k = Some v.
Proof.
  induction o as [|[k' v'] o IH]; simpl; intros Hnd Hin; [contradiction|].
  inversion Hnd as [|? ? Hnotin Hnd']; subst.
  destruct Hin as [[= -> ->]|Hin].
  - now rewrite String.eqb_refl.
  - destruct (String.eqb_spec k' k) as [->|Hne].
    + exfalso. apply Hnotin. apply (in_map fst) in Hin. exact Hin.
    + now apply IH.
Qed.

(** Writing a key that the object does not have adds it at the end. *)
Lemma set_fresh o k (v : V) :
  ~ In k (JSObject.keys o) -> JSObject.set o k v = (o ++ [(k, v)])%list.
Proof.
  induction o as [|[k' v'] o IH]; simpl; intros Hk; [reflexivity|].
  destruct (String.eqb_spec k' k) as [->|Hne].
  - exfalso. apply Hk. now left.
  - rewrite IH; [reflexivity|]. intros Hin. apply Hk. now right.
Qed.

(** One step of the [reduce] of [getChildrenValuesOfQueueName]. *)
Let step cv acc k :=
  match JSObject.get cv k with
  | Some v => JSObject.set acc k v
  | None => acc
  end.

(** What a key reads after the [reduce] has gone over the keys [ks]. *)
Lemma reduce_get cv ks acc k :
  JSObject.get (List.fold_left (step cv) ks acc) k =
  if List.existsb (String.eqb k) ks then
    match JSObject.get cv k with
    | Some v => Some v
    | None => JSObject.get acc k
    end
  else JSObject.get acc k.
Proof.
  revert acc. induction ks as [|a ks IH]; intros acc; simpl; [reflexivity|].
  rewrite IH. unfold step.
  destruct (String.eqb_spec k a) as [->|Hne]; simpl.
  - destruct (JSObject.get cv a) as [v|] eqn:E.
    + rewrite get_set_same. now destruct (List.existsb _ ks).
    + now destruct (List.existsb _ ks).
  - destruct (JSObject.get cv a) as [v|] eqn:E; [|reflexivity].
    now rewrite get_set_other.
Qed.

(** The [reduce] over the keys of entries [l] that are read back from
    [cv], none of them yet in [acc], appends the kept entries in order. *)
Lemma reduce_filter cv q l acc :
  (forall k v, In (k, v) l -> JSObject.get cv k = Some v) ->
  NoDup (JSObject.keys acc ++ JSObject.keys l) ->
  List.fold_left (step cv)
    (List.filter (fun k => includes k q) (JSObject.keys l)) acc
  = (acc ++ List.filter (fun kv => includes (fst kv) q) l)%list.
Proof.
  revert acc. induction l as [|[k v] l IH]; intros acc Hread Hnd; simpl.
  - now rewrite List.app_nil_r.
  - assert (Hread' : forall k0 v0, In (k0, v0) l -> JSObject.get cv k0 = Some v0)
      by (intros k0 v0 H0; apply Hread; now right).
    simpl in Hnd. destruct (includes k q) eqn:E; simpl.
    + unfold step at 2. rewrite (Hread k v) by now left.
      rewrite set_fresh.
      * rewrite IH; [now rewrite <- List.app_assoc|exact Hread'|].
        unfold JSObject.keys in *. rewrite List.map_app, <- List.app_assoc.
        exact Hnd.
      * apply NoDup_remove_2 in Hnd. intros Hin. apply Hnd.
        apply List.in_or_app. now left.
    + apply IH; [exact Hread'|]. now apply NoDup_remove_1 in Hnd.
Qed.

(** [includes], one step unfolded. *)
Lemma includes_unfold (s t : string) :
  includes s t =
  JS.startsWith s t
  || match s with
     | EmptyString => false
     | String _ rest => includes rest t
     end.
Proof. now destruct s. Qed.

(** [includes] decides [Includes]. *)
Lemma includes_true (s t : string) : includes s t = true <-> Includes s t.
Proof.
  unfold Includes. split.
  - induction s as [|c s IH]; rewrite includes_unfold; intros H;
      apply Bool.orb_true_iff in H; destruct H as [H|H].
    + apply startsWith_true in H. destruct H as [r Hr]. now exists "", r.
    + discriminate.
    + apply startsWith_true in H. destruct H as [r Hr]. now exists "", r.
    + destruct (IH H) as (p & r & ->). now exists (String c p), r.
  - intros (p & r & ->). induction p as [|c p IH]; rewrite includes_unfold.
    + apply Bool.orb_true_iff. left. apply startsWith_true. now exists r.
    + simpl. rewrite IH. apply Bool.orb_true_r.
Qed.

Lemma includes_empty (s : string) : includes s "" = true.
Proof. apply includes_true. now exists "", s. Qed.

(** The result, read key by key. *)
Lemma getChildrenValues_get q cv k :
  JSObject.get (getChildrenValuesOfQueueName q cv) k =
  if includes k q then JSObject.get cv k else None.
Proof.
  unfold getChildrenValuesOfQueueName.
  change (JSObject.get
            (List.fold_left (step cv)
               (List.filter (fun jobKey => includes jobKey q) (JSObject.keys cv))
               []) k = if includes k q then JSObject.get cv k else None).
  rewrite reduce_get. simpl JSObject.get.
  destruct (List.existsb _ _) eqn:Ex.
  - apply List.existsb_exists in Ex. destruct Ex as (x & Hin & Hx).
    apply String.eqb_eq in Hx. subst x.
    apply List.filter_In in Hin. destruct Hin as [_ ->].
    now destruct (JSObject.get cv k).
  - destruct (includes k q) eqn:E; [|reflexivity].
    symmetry. apply get_none_keys. intros Hin.
    assert (Hex : List.existsb (String.eqb k)
                    (List.filter (fun jobKey => includes jobKey q)
                       (JSObject.keys cv)) = true).
    { apply List.existsb_exists. exists k. split.
      - apply List.filter_In. now split.
      - apply String.eqb_refl. }
    congruence.
Qed.

(** The result as a list of entries, when each key occurs once. *)
Lemma getChildrenValues_filter q cv :
  NoDup (JSObject.keys cv) ->
  getChildrenValuesOfQueueName q cv
  = List.filter (fun kv => includes (fst kv) q) cv.
Proof.
  intros Hnd. unfold getChildrenValuesOfQueueName.
  change (List.fold_left (step cv)
            (List.filter (fun jobKey => includes jobKey q) (JSObject.keys cv)) []
          = List.filter (fun kv => includes (fst kv) q) cv).
  rewrite reduce_filter; [reflexivity| |exact Hnd].
  intros k v Hin. now apply get_in_nodup.
Qed.

End ChildrenValues.

(** X13. In the result of [getChildrenValuesOfQueueName] a job key that
    contains the queue name reads the same value as in the children
    values, and a job key that does not contain it is missing. *)
Theorem getChildrenValuesOfQueueName_lookup {CT : Type} (queueName : string)
  (childrenValues : JSObject.t CT) (jobKey : string) :
  (Includes jobKey queueName ->
   JSObject.get (getChildrenValuesOfQueueName queueName childrenValues) jobKey
   = JSObject.get childrenValues jobKey)
  /\ (~ Includes jobKey queueName ->
      JSObject.get (getChildrenValuesOfQueueName queueName childrenValues) jobKey
      = None).
Proof.
  rewrite getChildrenValues_get. split; intros H.
  - apply includes_true in H. now rewrite H.
  - destruct (includes jobKey queueName) eqn:E; [|reflexivity].
    apply includes_true in E. contradiction.
Qed.

Lemma getChildrenValuesOfQueueName_lookup_witness :
  JSObject.get
    (getChildrenValuesOfQueueName "dns-update"
       [("bull:dns-update:1", 10%Z); ("bull:certificate:2", 20%Z)])
    "bull:dns-update:1" = Some 10%Z
  /\ JSObject.get
       (getChildrenValuesOfQueueName "dns-update"
          [("bull:dns-update:1", 10%Z); ("bull:certificate:2", 20%Z)])
       "bull:certificate:2" = None.
Proof.
  split.
  - apply (proj1 (getChildrenValuesOfQueueName_lookup "dns-update"
                    [("bull:dns-update:1", 10%Z); ("bull:certificate:2", 20%Z)]
                    "bull:dns-update:1")).
    exists "bull:", ":1". reflexivity.
  - apply (proj2 (getChildrenValuesOfQueueName_lookup "dns-update"
                    [("bull:dns-update:1", 10%Z); ("bull:certificate:2", 20%Z)]
                    "bull:certificate:2")).
    intros H. apply includes_true in H. vm_compute in H. discriminate H.
Defined.

(** X14. On children values in which each job key occurs once, the result
    of [getChildrenValuesOfQueueName] is the entries whose key contains
    the queue name, in their order, and its keys again occur once. *)
Theorem getChildrenValuesOfQueueName_filter {CT : Type} (queueName : string)
  (childrenValues : JSObject.t CT) :
  NoDup (JSObject.keys childrenValues) ->
  getChildrenValuesOfQueueName queueName childrenValues
  = List.filter (fun kv => includes (fst kv) queueName) childrenValues
  /\ NoDup (JSObject.keys (getChildrenValuesOfQueueName queueName childrenValues)).
Proof.
  intros Hnd. rewrite getChildrenValues_filter by exact Hnd.
  split; [reflexivity|].
  clear -Hnd. induction childrenValues as [|[k v] cv IH]; simpl; [constructor|].
  simpl in Hnd. inversion Hnd as [|? ? Hnotin Hnd']; subst.
  destruct (includes k queueName); simpl; [|now apply IH].
  constructor; [|now apply IH].
  intros Hin. apply Hnotin. unfold JSObject.keys in *.
  apply List.in_map_iff in Hin. destruct Hin as ([k' v'] & Hk & Hin).
  simpl in Hk. subst k'. apply List.filter_In in Hin. destruct Hin as [Hin _].
  apply (List.in_map fst) in Hin. exact Hin.
Qed.

Lemma getChildrenValuesOfQueueName_filter_witness :
  getChildrenValuesOfQueueName "dns-update"
    [("bull:dns-update:1", 10%Z); ("bull:certificate:2", 20%Z);
     ("bull:dns-update:3", 30%Z)]
  = [("bull:dns-update:1", 10%Z); ("bull:dns-update:3", 30%Z)].
Proof.
  apply (getChildrenValuesOfQueueName_filter "dns-update"
           [("bull:dns-update:1", 10%Z); ("bull:certificate:2", 20%Z);
            ("bull:dns-update:3", 30%Z)]).
  repeat constructor; simpl; intuition discriminate.
Defined.

(** X15. The two ends of the filter: with the empty queue name every
    entry is kept (each job key occurring once), and when no job key
    contains the queue name the result is the empty object. *)
Theorem getChildrenValuesOfQueueName_all_or_nothing {CT : Type}
  (queueName : string) (childrenValues : JSObject.t CT) :
  (NoDup (JSObject.keys childrenValues) ->
   getChildrenValuesOfQueueName "" childrenValues = childrenValues)
  /\ ((forall jobKey, In jobKey (JSObject.keys childrenValues) ->
         ~ Includes jobKey queueName) ->
      getChildrenValuesOfQueueName queueName childrenValues = []).
Proof.
  split.
  - intros Hnd. rewrite getChildrenValues_filter by exact Hnd.
    clear Hnd. induction childrenValues as [|[k v] cv IH]; simpl; [reflexivity|].
    rewrite includes_empty. now rewrite IH.
  - intros Hno. unfold getChildrenValuesOfQueueName.
    replace (List.filter (fun jobKey => includes jobKey queueName)
               (JSObject.keys childrenValues)) with (@nil string); [reflexivity|].
    symmetry. induction (JSObject.keys childrenValues) as [|k ks IH]; simpl;
      [reflexivity|].
    destruct (includes k queueName) eqn:E.
    + apply includes_true in E. exfalso. apply (Hno k); [now left|exact E].
    + apply IH. intros j Hj. apply Hno. now right.
Qed.

Lemma getChildrenValuesOfQueueName_all_or_nothing_witness :
  getChildrenValuesOfQueueName ""
    [("bull:dns-update:1", 10%Z); ("bull:certificate:2", 20%Z)]
  = [("bull:dns-update:1", 10%Z); ("bull:certificate:2", 20%Z)]
  /\ getChildrenValuesOfQueueName "order"
       [("bull:dns-update:1", 10%Z); ("bull:certificate:2", 20%Z)]
     = [].
Proof.
  destruct (getChildrenValuesOfQueueName_all_or_nothing "order"
              [("bull:dns-update:1", 10%Z); ("bull:certificate:2", 20%Z)])
    as [Hall Hnone].
  split.
  - apply Hall. repeat constructor; simpl; intuition discriminate.
  - apply Hnone. intros jobKey Hin H. apply includes_true in H.
    simpl in Hin. destruct Hin as [<-|[<-|[]]]; vm_compute in H; discriminate H.
Defined.

(** ** Messages of status codes *)

Section StatusCodes.

Lemma isCode_true n k : isCode n k = true <-> n = NInt k.
Proof.
  destruct n as [z| |]; simpl; try (split; discriminate).
  rewrite Z.eqb_eq. split; [now intros -> | now intros [= ->]].
Qed.

(** A number is one of the seven codes, or gets the generic message. *)
Lemma statusCode_cases n :
  In n (List.map NInt knownStatusCodes)
  \/ (~ Known n /\ getErrorMessageFromStatusCode n = genericErrorMessage).
Proof.
  destruct n as [z| |].
  - destruct (List.in_dec Z.eq_dec z knownStatusCodes) as [Hin|Hout].
    + left. now apply List.in_map.
    + right. split.
      * intros (z' & [= <-] & Hin). contradiction.
      * unfold getErrorMessageFromStatusCode. cbn [isCode].
        simpl in Hout.
        repeat match goal with
               | |- context [(z =? ?k)%Z] =>
                   destruct (Z.eqb_spec z k) as [->|_];
                   [exfalso; apply Hout; tauto | cbv iota]
               end.
        reflexivity.
  - right. split; [intros (z & [=] & _) | reflexivity].
  - right. split; [intros (z & [=] & _) | reflexivity].
Qed.

Lemma known_in n : Known n <-> In n (List.map NInt knownStatusCodes).
Proof.
  split.
  - intros (z & -> & Hin). now apply List.in_map.
  - intros Hin. apply List.in_map_iff in Hin. destruct Hin as (z & <- & Hin).
    now exists z.
Qed.

End StatusCodes.

(** X16. [getErrorMessageFromStatusCode] gives the generic message exactly
    for the numbers that are not one of 400, 401, 403, 404, 500, 502 and
    503, and the message of one of these codes is the message of no other
    number. *)
Theorem getErrorMessageFromStatusCode_distinct (a b : Num) :
  (getErrorMessageFromStatusCode a = genericErrorMessage <-> ~ Known a)
  /\ (Known a ->
      getErrorMessageFromStatusCode a = getErrorMessageFromStatusCode b ->
      a = b).
Proof.
  split.
  - split.
    + intros H Ha. apply known_in in Ha. simpl in Ha.
      repeat (destruct Ha as [<-|Ha]; [vm_compute in H; discriminate H|]).
      contradiction.
    + intros Ha. destruct (statusCode_cases a) as [Hin|[_ H]]; [|exact H].
      now apply known_in in Hin.
  - intros Ha H. apply known_in in Ha.
    destruct (statusCode_cases b) as [Hb|[_ Hb]].
    + simpl in Ha, Hb.
      repeat (destruct Ha as [<-|Ha]; [|]); try contradiction;
        repeat (destruct Hb as [<-|Hb]; [|]); try contradiction;
        try reflexivity; vm_compute in H; discriminate H.
    + rewrite Hb in H. simpl in Ha.
      repeat (destruct Ha as [<-|Ha]; [vm_compute in H; discriminate H|]).
      contradiction.
Qed.

Lemma getErrorMessageFromStatusCode_distinct_witness :
  NInt 404 = NInt 404.
Proof.
  apply (proj2 (getErrorMessageFromStatusCode_distinct (NInt 404) (NInt 404))).
  - exists 404%Z. split; [reflexivity|]. simpl. tauto.
  - reflexivity.
Defined.
